(** * Brecho (EcoFashion): cart, order and checkout core

  A shallow embedding of the cart-to-order code of the API:
  - [api/config/database.js]   : the tables initDatabase creates and the
                                 persistence helpers runQuery, getRow, getAllRows;
  - [api/models/Cart.js]       : class Cart (the Cart Engine);
  - [api/models/Order.js]      : class Order (the Order Engine);
  - [api/models/Product.js]    : Product.updateStock;
  - [api/controllers/OrderController.js] : the handlers create (checkout),
                                 getById, updateStatus, updatePaymentStatus,
                                 cancel and delete.

  The SQLite store is a record of tables, each table a list of rows in
  rowid order.  The JavaScript is embedded in a state and exception monad,
  so that a write made before a throw stays made (the code uses no
  transaction).

  Columns: the tables are the ones the CREATE TABLE statements of
  initDatabase create, and no other code of the repository creates or
  alters a table.  [products] has a column [stock] and none named
  [stock_quantity]; [orders] has no column [notes].  A statement that
  names a column its table does not have is not prepared by SQLite: the
  callback of db.get, db.all or db.run receives the error, the helper
  rejects, and the awaiting method throws it.  Such a statement is
  embedded as that rejection; a statement that names declared columns only
  is embedded as the relational function it denotes.  Descriptive columns
  no statement here branches on (images, seller and category names, user
  name and e-mail) are left out of the rows.

  Numbers: prices and totals are JavaScript numbers, embedded as binary64
  floats; ids, quantities, counters and timestamps are integers. *)

From Stdlib Require Import ZArith List String Ascii Bool Lia Floats.
From Stdlib Require Import DecimalString.
Import ListNotations.

Local Open Scope string_scope.
Local Open Scope Z_scope.

(** ** JavaScript odds and ends *)

Module Js.

(** A JavaScript number that is not known to be an integer. *)
Definition number : Set := float.

(** The number an integer column yields: the double nearest to an integer
    of magnitude below 2^63. *)
Definition of_integer (n : Z) : number :=
  if n <? 0 then PrimFloat.opp (PrimFloat.of_uint63 (Uint63.of_Z (- n)))
  else PrimFloat.of_uint63 (Uint63.of_Z n).

(** The string a template literal produces for an integer. *)
Definition of_number (n : Z) : string := NilZero.string_of_int (Z.to_int n).

(** The character U+0022, as it occurs inside the messages. *)
Definition dquote : string := String (ascii_of_nat 34) EmptyString.

(** Truthiness of a value that is a string, null or undefined. *)
Definition truthy (s : option string) : bool :=
  match s with
  | Some (String _ _) => true
  | _ => false
  end.

(** Array.prototype.includes on an array of strings. *)
Definition array_includes (l : list string) (s : string) : bool :=
  existsb (String.eqb s) l.

(** [a > b] for a an integer and b an integer or undefined: undefined
    converts to NaN and every comparison with NaN is false. *)
Definition gt (a : Z) (b : option Z) : bool :=
  match b with
  | Some b => b <? a
  | None => false
  end.

End Js.

(** ** The tables of initDatabase (config/database.js) *)

Module Schema.

(** CREATE TABLE IF NOT EXISTS products (...) *)
Definition products : list string :=
  ["id"; "name"; "description"; "price"; "original_price"; "category_id";
   "brand"; "size"; "condition"; "color"; "material"; "images"; "stock";
   "status"; "seller_id"; "created_at"; "updated_at"].

(** CREATE TABLE IF NOT EXISTS orders (...) *)
Definition orders : list string :=
  ["id"; "user_id"; "total_amount"; "status"; "shipping_address";
   "payment_method"; "payment_status"; "created_at"; "updated_at"].

(** CREATE TABLE IF NOT EXISTS order_items (...) *)
Definition order_items : list string :=
  ["id"; "order_id"; "product_id"; "quantity"; "price"].

(** CREATE TABLE IF NOT EXISTS cart (...) *)
Definition cart : list string :=
  ["id"; "user_id"; "product_id"; "quantity"; "created_at"].

Definition declares (table : list string) (column : string) : bool :=
  existsb (String.eqb column) table.

(** The message of the error sqlite3 passes on for a SELECT or an UPDATE
    that names a column the table does not have, and for an INSERT that
    lists one. *)
Definition no_such_column (name : string) : string :=
  "SQLITE_ERROR: no such column: " ++ name.

Definition no_column_named (table name : string) : string :=
  "SQLITE_ERROR: table " ++ table ++ " has no column named " ++ name.

End Schema.

(** ** The store (config/database.js) *)

Module Store.

Record product_row := mk_product
  { p_id : Z;
    p_name : string;
    p_price : Js.number;
    p_stock : Z;
    p_status : string;
    p_updated_at : Z }.

Record cart_row := mk_cart
  { c_id : Z;
    c_user_id : Z;
    c_product_id : Z;
    c_quantity : Z;
    c_created_at : Z }.

Record order_row := mk_order
  { o_id : Z;
    o_user_id : Z;
    o_total_amount : Js.number;
    o_status : string;
    o_shipping_address : option string;
    o_payment_method : option string;
    o_payment_status : string;
    o_created_at : Z;
    o_updated_at : Z }.

(** [data.notes], which the constructor of Order copies into [this.notes]:
    a row of orders has no such column, so the property is undefined on
    every row. *)
Definition o_notes (o : order_row) : option string := None.

Record order_item_row := mk_order_item
  { oi_id : Z;
    oi_order_id : Z;
    oi_product_id : Z;
    oi_quantity : Z;
    oi_price : Js.number }.

(** The database: the four tables, the AUTOINCREMENT counters of the
    three tables the code inserts into, and the reading of the clock that
    CURRENT_TIMESTAMP returns. *)
Record DB := mk_db
  { products : list product_row;
    cart : list cart_row;
    orders : list order_row;
    order_items : list order_item_row;
    seq_cart : Z;
    seq_orders : Z;
    seq_order_items : Z;
    clock : Z }.

Definition with_products (l : list product_row) (db : DB) : DB :=
  mk_db l (cart db) (orders db) (order_items db)
        (seq_cart db) (seq_orders db) (seq_order_items db) (clock db).

Definition with_cart (l : list cart_row) (db : DB) : DB :=
  mk_db (products db) l (orders db) (order_items db)
        (seq_cart db) (seq_orders db) (seq_order_items db) (clock db).

Definition with_orders (l : list order_row) (db : DB) : DB :=
  mk_db (products db) (cart db) l (order_items db)
        (seq_cart db) (seq_orders db) (seq_order_items db) (clock db).

(** What an awaited call yields: a value, or a thrown Error with its
    message. *)
Inductive outcome (A : Type) : Type :=
| Ok (a : A)
| Throw (message : string).
Arguments Ok {A} a.
Arguments Throw {A} message.

Definition M (A : Type) : Type := DB -> outcome A * DB.

Definition ret {A : Type} (a : A) : M A := fun db => (Ok a, db).

Definition throw {A : Type} (message : string) : M A :=
  fun db => (Throw message, db).

Definition bind {A B : Type} (c : M A) (k : A -> M B) : M B :=
  fun db =>
    match c db with
    | (Ok a, db') => k a db'
    | (Throw m, db') => (Throw m, db')
    end.

(** The result object of runQuery: [{ id: this.lastID, changes }].  The
    id means something after an INSERT only; no caller reads it after an
    UPDATE or a DELETE. *)
Record run_result := mk_run { lastID : Z; changes : Z }.

(** A query: the rows it returns, or the error of a statement SQLite does
    not prepare. *)
Definition query (A : Type) : Type := DB -> outcome (list A).

(** A write: its result object and the store after it, or the error, in
    which case nothing is written. *)
Definition write : Type := DB -> outcome run_result * DB.

Definition rows {A : Type} (q : DB -> list A) : query A :=
  fun db => Ok (q db).

Definition rejected {A : Type} (message : string) : query A :=
  fun _ => Throw message.

Definition executed (w : DB -> run_result * DB) : write :=
  fun db => let (r, db') := w db in (Ok r, db').

Definition refused (message : string) : write :=
  fun db => (Throw message, db).

(** runQuery resolves with the result object or rejects with the error;
    getRow resolves with the first row of a query or undefined;
    getAllRows with all of them. *)
Definition runQuery (stmt : write) : M run_result := stmt.

Definition getRow {A : Type} (stmt : query A) : M (option A) :=
  fun db =>
    match stmt db with
    | Ok l => (Ok (hd_error l), db)
    | Throw m => (Throw m, db)
    end.

Definition getAllRows {A : Type} (stmt : query A) : M (list A) :=
  fun db =>
    match stmt db with
    | Ok l => (Ok l, db)
    | Throw m => (Throw m, db)
    end.

(** Calling a static method of a class.  [None] stands for a name the
    class body does not declare: the property is undefined and the call
    throws a TypeError. *)
Definition call {F A : Type} (name : string) (method : option F)
  (k : F -> M A) : M A :=
  match method with
  | Some f => k f
  | None => throw (name ++ " is not a function")
  end.

(** [for (const x of xs) { await body(x) }] over an array. *)
Fixpoint for_of {A : Type} (xs : list A) (body : A -> M unit) : M unit :=
  match xs with
  | [] => ret tt
  | x :: rest => bind (body x) (fun _ => for_of rest body)
  end.

(** try { ... } catch (error) { ... } around an async body. *)
Definition try_catch {A : Type} (body : M A) (handler : string -> A)
  : DB -> A * DB :=
  fun db =>
    match body db with
    | (Ok a, db') => (a, db')
    | (Throw m, db') => (handler m, db')
    end.

End Store.

Declare Scope store_scope.
Notation "x <- c ;; k" := (Store.bind c (fun x => k))
(at level 61, c at next level, right associativity) : store_scope.
Notation "c ;;; k" := (Store.bind c (fun _ => k))
(at level 61, right associativity) : store_scope.
Local Open Scope store_scope.

(** ** The Cart Engine (models/Cart.js) *)

Module Cart.
Import Store.

Definition msg_unavailable : string :=
  "Produto não encontrado ou não disponível".

Definition msg_stock : string :=
  "Quantidade solicitada excede o estoque disponível".

Definition msg_empty : string := "Carrinho está vazio".

(** The object getItem builds from a row: the cart columns and the
    columns of the LEFT JOIN on products (NULL when no product matches). *)
Record item := mk_item
  { i_id : Z;
    i_user_id : Z;
    i_product_id : Z;
    i_quantity : Z;
    i_created_at : Z;
    i_product_name : option string;
    i_price : option Js.number;
    i_stock_quantity : option Z;
    i_product_status : option string }.

(** A row of the statement of getByUser; its WHERE keeps rows with a
    product only. *)
Record view_row := mk_view_row
  { r_id : Z;
    r_user_id : Z;
    r_product_id : Z;
    r_quantity : Z;
    r_created_at : Z;
    r_product_name : string;
    r_price : Js.number;
    r_stock_quantity : Z;
    r_product_status : string }.

(** The object getByUser builds from a row, with its item_total. *)
Record line := mk_line
  { l_row : view_row;
    l_item_total : Js.number }.

Record summary := mk_summary
  { item_count : Z;
    subtotal : Js.number;
    total : Js.number }.

(** What getByUser returns: [{ items, summary }]. *)
Record view := mk_view
  { items : list line;
    view_summary : summary }.

(** What validateCart returns: [{ valid, errors, cart }]; the early
    return on an empty cart has no cart property. *)
Record validation := mk_validation
  { valid : bool;
    errors : list string;
    v_cart : option view }.

(** A value returned by addItem and updateQuantity: the boolean of
    removeItem, or the item (or null) of getItem. *)
Inductive returned : Type :=
| Removed (deleted : bool)
| Item (found : option item).

Definition is_available (p : product_row) : bool :=
  String.eqb (p_status p) "available".

Definition is_line_of (userId productId : Z) (c : cart_row) : bool :=
  (c_user_id c =? userId) && (c_product_id c =? productId).

(** SELECT * FROM products WHERE id = ? AND status = "available" *)
Definition select_available_product (productId : Z) : query product_row :=
  rows (fun db =>
          filter (fun p => (p_id p =? productId) && is_available p)
                 (products db)).

(** [product.stock_quantity] on a row of that statement: the row has the
    columns of products, stock_quantity is not one of them, and the
    property is undefined. *)
Definition stock_quantity_of (product : product_row) : option Z := None.

(** SELECT c.*, p.name as product_name, p.price, p.images as product_images,
    p.stock_quantity, p.status as product_status, u.name as seller_name
    FROM cart c LEFT JOIN products p ON c.product_id = p.id
    LEFT JOIN users u ON p.seller_id = u.id
    WHERE c.user_id = ? AND c.product_id = ?
    It names p.stock_quantity. *)
Definition select_item (userId productId : Z) : query item :=
  rejected (Schema.no_such_column "p.stock_quantity").

(** SELECT c.*, p.name as product_name, p.price, p.images as product_images,
    p.stock_quantity, p.status as product_status, u.name as seller_name,
    cat.name as category_name
    FROM cart c LEFT JOIN products p ON c.product_id = p.id ...
    WHERE c.user_id = ? AND p.status = 'available'
    ORDER BY c.created_at DESC
    It names p.stock_quantity. *)
Definition select_by_user (userId : Z) : query view_row :=
  rejected (Schema.no_such_column "p.stock_quantity").

(** SELECT stock_quantity FROM products
    WHERE id = ? AND status = "available" *)
Definition select_stock_quantity (productId : Z) : query Z :=
  rejected (Schema.no_such_column "stock_quantity").

(** INSERT INTO cart (user_id, product_id, quantity) VALUES (?, ?, ?) *)
Definition insert_line (userId productId quantity : Z) : write :=
  executed (fun db =>
    let id := seq_cart db + 1 in
    (mk_run id 1,
     mk_db (products db)
           (cart db ++ [mk_cart id userId productId quantity (clock db)])%list
           (orders db) (order_items db)
           id (seq_orders db) (seq_order_items db) (clock db))).

Definition set_quantity (quantity : Z) (c : cart_row) : cart_row :=
  mk_cart (c_id c) (c_user_id c) (c_product_id c) quantity (c_created_at c).

(** UPDATE cart SET quantity = ? WHERE user_id = ? AND product_id = ? *)
Definition update_line (quantity userId productId : Z) : write :=
  executed (fun db =>
    (mk_run (seq_cart db)
            (Z.of_nat (List.length (filter (is_line_of userId productId) (cart db)))),
     with_cart
       (map (fun c => if is_line_of userId productId c
                      then set_quantity quantity c else c) (cart db))
       db)).

(** DELETE FROM cart WHERE user_id = ? AND product_id = ? *)
Definition delete_line (userId productId : Z) : write :=
  executed (fun db =>
    (mk_run (seq_cart db)
            (Z.of_nat (List.length (filter (is_line_of userId productId) (cart db)))),
     with_cart (filter (fun c => negb (is_line_of userId productId c)) (cart db))
               db)).

(** DELETE FROM cart WHERE user_id = ? *)
Definition delete_lines_of (userId : Z) : write :=
  executed (fun db =>
    (mk_run (seq_cart db)
            (Z.of_nat (List.length (filter (fun c => c_user_id c =? userId) (cart db)))),
     with_cart (filter (fun c => negb (c_user_id c =? userId)) (cart db)) db)).

(** static async getItem(userId, productId) *)
Definition getItem (userId productId : Z) : M (option item) :=
  row <- getRow (select_item userId productId) ;;
  match row with
  | None => ret None
  | Some row => ret (Some row)
  end.

(** static async removeItem(userId, productId) *)
Definition removeItem (userId productId : Z) : M bool :=
  result <- runQuery (delete_line userId productId) ;;
  ret (0 <? changes result).

(** static async updateQuantity(userId, productId, quantity) *)
Definition updateQuantity (userId productId quantity : Z) : M returned :=
  if quantity <=? 0 then
    deleted <- removeItem userId productId ;;
    ret (Removed deleted)
  else
    product <- getRow (select_stock_quantity productId) ;;
    match product with
    | None => throw msg_unavailable
    | Some stock_quantity =>
        if Js.gt quantity (Some stock_quantity) then throw msg_stock
        else
          runQuery (update_line quantity userId productId) ;;;
          (found <- getItem userId productId ;;
           ret (Item found))
    end.

(** static async addItem(userId, productId, quantity = 1) *)
Definition addItem (userId productId quantity : Z) : M returned :=
  product <- getRow (select_available_product productId) ;;
  match product with
  | None => throw msg_unavailable
  | Some product =>
      existingItem <- getItem userId productId ;;
      match existingItem with
      | Some existingItem =>
          let newQuantity := i_quantity existingItem + quantity in
          if Js.gt newQuantity (stock_quantity_of product) then throw msg_stock
          else updateQuantity userId productId newQuantity
      | None =>
          if Js.gt quantity (stock_quantity_of product) then throw msg_stock
          else
            runQuery (insert_line userId productId quantity) ;;;
            (found <- getItem userId productId ;;
             ret (Item found))
      end
  end.

(** [item.item_total = item.price * item.quantity] *)
Definition to_line (r : view_row) : line :=
  mk_line r (PrimFloat.mul (r_price r) (Js.of_integer (r_quantity r))).

(** static async getByUser(userId) *)
Definition getByUser (userId : Z) : M view :=
  items <- getAllRows (select_by_user userId) ;;
  let cartItems := map to_line items in
  let subtotal :=
    fold_left (fun sum item => PrimFloat.add sum (l_item_total item))
              cartItems PrimFloat.zero in
  let itemCount :=
    fold_left (fun sum item => sum + r_quantity (l_row item)) cartItems 0 in
  ret (mk_view cartItems (mk_summary itemCount subtotal subtotal)).

(** static async clearCart(userId) *)
Definition clearCart (userId : Z) : M Z :=
  result <- runQuery (delete_lines_of userId) ;;
  ret (changes result).

(** The class body declares no static method named getTotal and none
    named clear (it declares getCartTotal and clearCart): [Cart.getTotal]
    and [Cart.clear] evaluate to undefined. *)
Definition getTotal : option (Z -> M Js.number) := None.

Definition clear : option (Z -> M Z) := None.

Definition msg_not_available (product_name : string) : string :=
  "Produto " ++ Js.dquote ++ product_name ++ Js.dquote
  ++ " não está mais disponível".

Definition msg_exceeds (product_name : string) (stock_quantity : Z) : string :=
  "Quantidade solicitada para " ++ Js.dquote ++ product_name ++ Js.dquote
  ++ " excede o estoque (" ++ Js.of_number stock_quantity ++ " disponível)".

(** One turn of the loop of validateCart: the messages pushed for one item. *)
Definition check_item (errors : list string) (item : line) : list string :=
  let errors :=
    if negb (String.eqb (r_product_status (l_row item)) "available")
    then (errors ++ [msg_not_available (r_product_name (l_row item))])%list
    else errors in
  if r_stock_quantity (l_row item) <? r_quantity (l_row item)
  then (errors ++ [msg_exceeds (r_product_name (l_row item))
                               (r_stock_quantity (l_row item))])%list
  else errors.

(** static async validateCart(userId) *)
Definition validateCart (userId : Z) : M validation :=
  cart <- getByUser userId ;;
  if (List.length (items cart) =? 0)%nat then
    ret (mk_validation false [msg_empty] None)
  else
    let errors := fold_left check_item (items cart) [] in
    ret (mk_validation (List.length errors =? 0)%nat errors (Some cart)).

(** SELECT 1 FROM cart WHERE user_id = ? AND product_id = ? *)
Definition select_in_cart (userId productId : Z) : query Z :=
  rows (fun db => map (fun _ => 1) (filter (is_line_of userId productId) (cart db))).

(** static async isInCart(userId, productId): [!!result] *)
Definition isInCart (userId productId : Z) : M bool :=
  result <- getRow (select_in_cart userId productId) ;;
  ret (match result with
       | Some _ => true
       | None => false
       end).

(** static async moveToOrder(userId, orderId) *)
Definition moveToOrder (userId orderId : Z) : M view :=
  cartItems <- getByUser userId ;;
  clearCart userId ;;;
  ret cartItems.

End Cart.

(** ** The Order Engine (models/Order.js) *)

Module Order.
Import Store.

(** An element of orderData.items: [{product_id, quantity, price}]. *)
Record line_input := mk_line_input
  { li_product_id : Z;
    li_quantity : Z;
    li_price : Js.number }.

(** The properties of orderData that create destructures; a property the
    caller did not set is undefined, which for [items] is [None]. *)
Record order_data := mk_order_data
  { od_user_id : Z;
    od_items : option (list line_input);
    od_shipping_address : option string;
    od_payment_method : option string;
    od_notes : option string }.

(** The object findById returns: the order columns and its items. *)
Record order := mk_order_obj
  { row : order_row;
    items : list order_item_row }.

Definition msg_not_found : string := "Pedido não encontrado".

Definition msg_cannot_cancel : string :=
  "Não é possível cancelar este pedido".

Definition msg_invalid_status : string := "Status inválido".

(** SELECT o.*, u.name as user_name, u.email as user_email FROM orders o
    LEFT JOIN users u ON o.user_id = u.id WHERE o.id = ? *)
Definition select_order (id : Z) (db : DB) : list order_row :=
  filter (fun o => o_id o =? id) (orders db).

(** SELECT oi.*, p.name as product_name, p.images as product_images,
    u.name as seller_name FROM order_items oi ... WHERE oi.order_id = ? *)
Definition select_order_items (orderId : Z) (db : DB) : list order_item_row :=
  filter (fun oi => oi_order_id oi =? orderId) (order_items db).

(** INSERT INTO orders (user_id, total_amount, shipping_address,
    payment_method, notes) VALUES (?, ?, ?, ?, ?)
    It lists notes. *)
Definition insert_order (user_id : Z) (total_amount : Js.number)
  (shipping_address payment_method notes : option string) : write :=
  refused (Schema.no_column_named "orders" "notes").

(** INSERT INTO order_items (order_id, product_id, quantity, price)
    VALUES (?, ?, ?, ?) *)
Definition insert_order_item (orderId : Z) (item : line_input) : write :=
  executed (fun db =>
    let id := seq_order_items db + 1 in
    (mk_run id 1,
     mk_db (products db) (cart db) (orders db)
           (order_items db ++
            [mk_order_item id orderId (li_product_id item) (li_quantity item)
                           (li_price item)])%list
           (seq_cart db) (seq_orders db) id (clock db))).

Definition set_status (status : string) (now : Z) (o : order_row) : order_row :=
  mk_order (o_id o) (o_user_id o) (o_total_amount o) status
           (o_shipping_address o) (o_payment_method o) (o_payment_status o)
           (o_created_at o) now.

(** UPDATE orders SET status = ?, updated_at = CURRENT_TIMESTAMP
    [, notes = ?] WHERE id = ?
    The clause that names notes is added when notes is truthy. *)
Definition update_status (id : Z) (status : string) (notes : option string)
  : write :=
  if Js.truthy notes then refused (Schema.no_such_column "notes")
  else
    executed (fun db =>
      (mk_run (seq_orders db)
              (Z.of_nat (List.length (filter (fun o => o_id o =? id) (orders db)))),
       with_orders
         (map (fun o => if o_id o =? id then set_status status (clock db) o else o)
              (orders db))
         db)).

(** static async getOrderItems(orderId) *)
Definition getOrderItems (orderId : Z) : M (list order_item_row) :=
  getAllRows (rows (select_order_items orderId)).

(** static async findById(id) *)
Definition findById (id : Z) : M (option order) :=
  row <- getRow (rows (select_order id)) ;;
  match row with
  | None => ret None
  | Some row =>
      items <- getOrderItems id ;;
      ret (Some (mk_order_obj row items))
  end.

(** static async create(orderData) *)
Definition create (orderData : order_data) : M (option order) :=
  match od_items orderData with
  | None => throw "items is not iterable"
  | Some items =>
      let total_amount :=
        fold_left
          (fun total item =>
             PrimFloat.add total
               (PrimFloat.mul (li_price item) (Js.of_integer (li_quantity item))))
          items PrimFloat.zero in
      orderResult <-
        runQuery (insert_order (od_user_id orderData) total_amount
                    (od_shipping_address orderData)
                    (od_payment_method orderData) (od_notes orderData)) ;;
      let orderId := lastID orderResult in
      for_of items
        (fun item => runQuery (insert_order_item orderId item) ;;; ret tt) ;;;
      findById orderId
  end.

Definition validStatuses : list string :=
  ["pending"; "confirmed"; "processing"; "shipped"; "delivered"; "cancelled"].

(** static async updateStatus(id, status, notes = null) *)
Definition updateStatus (id : Z) (status : string) (notes : option string)
  : M (option order) :=
  if negb (Js.array_includes validStatuses status) then
    throw msg_invalid_status
  else
    runQuery (update_status id status notes) ;;;
    findById id.

(** The notes cancel records:
    [reason ? `Cancelado: ${reason}` : 'Pedido cancelado']. *)
Definition cancel_notes (reason : option string) : string :=
  match reason with
  | Some r => if Js.truthy reason then "Cancelado: " ++ r else "Pedido cancelado"
  | None => "Pedido cancelado"
  end.

(** static async cancel(id, reason = null) *)
Definition cancel (id : Z) (reason : option string) : M (option order) :=
  order <- findById id ;;
  match order with
  | None => throw msg_not_found
  | Some order =>
      if String.eqb (o_status (row order)) "delivered"
         || String.eqb (o_status (row order)) "cancelled"
      then throw msg_cannot_cancel
      else updateStatus id "cancelled" (Some (cancel_notes reason))
  end.

Definition validPaymentStatuses : list string :=
  ["pending"; "paid"; "failed"; "refunded"].

Definition msg_invalid_payment_status : string :=
  "Status de pagamento inválido".

Definition msg_invalid_ids : string := "IDs de pedidos inválidos".

Definition set_payment_status (paymentStatus : string) (now : Z)
  (o : order_row) : order_row :=
  mk_order (o_id o) (o_user_id o) (o_total_amount o) (o_status o)
           (o_shipping_address o) (o_payment_method o) paymentStatus
           (o_created_at o) now.

(** UPDATE orders SET payment_status = ?, updated_at = CURRENT_TIMESTAMP
    WHERE id = ? *)
Definition update_payment_status (paymentStatus : string) (id : Z) : write :=
  executed (fun db =>
    (mk_run (seq_orders db)
            (Z.of_nat (List.length (filter (fun o => o_id o =? id) (orders db)))),
     with_orders
       (map (fun o => if o_id o =? id
                      then set_payment_status paymentStatus (clock db) o else o)
            (orders db))
       db)).

(** static async updatePaymentStatus(id, paymentStatus) *)
Definition updatePaymentStatus (id : Z) (paymentStatus : string)
  : M (option order) :=
  if negb (Js.array_includes validPaymentStatuses paymentStatus) then
    throw msg_invalid_payment_status
  else
    runQuery (update_payment_status paymentStatus id) ;;;
    findById id.

(** DELETE FROM order_items WHERE order_id = ? *)
Definition delete_order_items (id : Z) : write :=
  executed (fun db =>
    (mk_run (seq_order_items db)
            (Z.of_nat (List.length
                         (filter (fun oi => oi_order_id oi =? id) (order_items db)))),
     mk_db (products db) (cart db) (orders db)
           (filter (fun oi => negb (oi_order_id oi =? id)) (order_items db))
           (seq_cart db) (seq_orders db) (seq_order_items db) (clock db))).

(** DELETE FROM orders WHERE id = ? *)
Definition delete_order (id : Z) : write :=
  executed (fun db =>
    (mk_run (seq_orders db)
            (Z.of_nat (List.length (filter (fun o => o_id o =? id) (orders db)))),
     with_orders (filter (fun o => negb (o_id o =? id)) (orders db)) db)).

(** static async delete(id) *)
Definition delete (id : Z) : M bool :=
  runQuery (delete_order_items id) ;;;
  (result <- runQuery (delete_order id) ;;
   ret (0 <? changes result)).

(** [id IN (?, ..., ?)] *)
Definition id_in (ids : list Z) (id : Z) : bool := existsb (Z.eqb id) ids.

(** UPDATE orders SET status = ?, updated_at = CURRENT_TIMESTAMP
    [, notes = ?] WHERE id IN (...)
    The clause that names notes is added when notes is truthy. *)
Definition update_status_in (orderIds : list Z) (status : string)
  (notes : option string) : write :=
  if Js.truthy notes then refused (Schema.no_such_column "notes")
  else
    executed (fun db =>
      (mk_run (seq_orders db)
              (Z.of_nat (List.length
                           (filter (fun o => id_in orderIds (o_id o)) (orders db)))),
       with_orders
         (map (fun o => if id_in orderIds (o_id o)
                        then set_status status (clock db) o else o)
              (orders db))
         db)).

(** What bulkUpdateStatus returns: [{ updated, total, status }]. *)
Record bulk_update := mk_bulk_update
  { updated : Z;
    update_total : Z;
    update_status_set : string }.

(** static async bulkUpdateStatus(orderIds, status, notes = null);
    orderIds is an array here, so the Array.isArray test passes. *)
Definition bulkUpdateStatus (orderIds : list Z) (status : string)
  (notes : option string) : M bulk_update :=
  if negb (Js.array_includes validStatuses status) then
    throw msg_invalid_status
  else if (List.length orderIds =? 0)%nat then
    throw msg_invalid_ids
  else
    result <- runQuery (update_status_in orderIds status notes) ;;
    ret (mk_bulk_update (changes result) (Z.of_nat (List.length orderIds))
                        status).

Definition is_terminal (status : string) : bool :=
  String.eqb status "delivered" || String.eqb status "cancelled".

(** SELECT id, status FROM orders WHERE id IN (...)
    AND status NOT IN ('delivered', 'cancelled') *)
Definition select_cancellable (orderIds : list Z) (db : DB)
  : list (Z * string) :=
  map (fun o => (o_id o, o_status o))
      (filter (fun o => id_in orderIds (o_id o) && negb (is_terminal (o_status o)))
              (orders db)).

(** UPDATE orders SET status = 'cancelled', notes = ?,
    updated_at = CURRENT_TIMESTAMP WHERE id IN (...)
    It names notes. *)
Definition cancel_in (notes : string) (validIds : list Z) : write :=
  refused (Schema.no_such_column "notes").

(** [reason ? `Cancelado em massa: ${reason}` : 'Pedido cancelado em massa'] *)
Definition bulk_cancel_notes (reason : option string) : string :=
  match reason with
  | Some r =>
      if Js.truthy reason then "Cancelado em massa: " ++ r
      else "Pedido cancelado em massa"
  | None => "Pedido cancelado em massa"
  end.

(** What bulkCancel returns: [{ cancelled, total, errors }]. *)
Record bulk_cancel := mk_bulk_cancel
  { cancelled : Z;
    cancel_total : Z;
    cancel_errors : list string }.

(** static async bulkCancel(orderIds, reason = null) *)
Definition bulkCancel (orderIds : list Z) (reason : option string)
  : M bulk_cancel :=
  if (List.length orderIds =? 0)%nat then
    throw msg_invalid_ids
  else
    validOrders <- getAllRows (rows (select_cancellable orderIds)) ;;
    let validIds := map fst validOrders in
    if (List.length validIds =? 0)%nat then
      ret (mk_bulk_cancel 0 (Z.of_nat (List.length orderIds))
                          ["Nenhum pedido pode ser cancelado"])
    else
      let notes := bulk_cancel_notes reason in
      result <- runQuery (cancel_in notes validIds) ;;
      let errors :=
        if (List.length validIds <? List.length orderIds)%nat
        then [Js.of_number (Z.of_nat (List.length orderIds)
                            - Z.of_nat (List.length validIds))
              ++ " pedidos não puderam ser cancelados"]
        else [] in
      ret (mk_bulk_cancel (changes result) (Z.of_nat (List.length orderIds))
                          errors).


End Order.

(** ** Product.updateStock (models/Product.js) *)

Module Product.
Import Store.

Definition set_stock (quantity now : Z) (p : product_row) : product_row :=
  mk_product (p_id p) (p_name p) (p_price p) quantity (p_status p) now.

(** UPDATE products SET stock = ?, updated_at = CURRENT_TIMESTAMP
    WHERE id = ? *)
Definition update_stock (id quantity : Z) : write :=
  executed (fun db =>
    (mk_run 0
            (Z.of_nat (List.length (filter (fun p => p_id p =? id) (products db)))),
     with_products
       (map (fun p => if p_id p =? id then set_stock quantity (clock db) p else p)
            (products db))
       db)).

(** static async updateStock(id, quantity) *)
Definition updateStock (id quantity : Z) : M bool :=
  result <- runQuery (update_stock id quantity) ;;
  ret (0 <? changes result).

End Product.

(** ** The handlers of OrderController (controllers/OrderController.js) *)

Module OrderController.
Import Store.

(** What the handlers read of the request: the outcome of
    validationResult(req), req.user, req.params.id and req.body. *)
Record request := mk_request
  { validation_errors : list string;
    user_id : Z;
    user_role : string;
    params_id : Z;
    shipping_address : option string;
    payment_method : option string;
    notes : option string;
    reason : option string }.

(** [res.status(code).json(body)]; a property the body does not have, or
    has with the value undefined, is [None]. *)
Record response := mk_response
  { status : Z;
    success : bool;
    message : string;
    errors : option (list string);
    details : option (list string);
    data : option Order.order;
    error : option string }.

Definition failure (code : Z) (message : string) : response :=
  mk_response code false message None None None None.

Definition internal_error (error_message : string) : response :=
  mk_response 500 false "Erro interno do servidor" None None None
              (Some error_message).

(** [cartItems.length]: getByUser returns an object with the properties
    items and summary; it has no length, so the expression is undefined. *)
Definition length_of (cartItems : Cart.view) : option Z := None.

(** [validation.issues]: validateCart returns the properties valid,
    errors and cart; it has no issues, so the expression is undefined. *)
Definition issues_of (validation : Cart.validation) : option (list string) :=
  None.

(** [x === 0] for x a number or undefined. *)
Definition is_zero (x : option Z) : bool :=
  match x with
  | Some n => n =? 0
  | None => false
  end.

(** static async create(req, res).  [!cartItems] is false, an object being
    truthy.  Order.create is called with two arguments and reads the first;
    the orderData built here sets user_id, total_amount, status,
    payment_status, payment_method, shipping_address and notes, and no
    items. *)
Definition create (req : request) : DB -> response * DB :=
  try_catch
    (if negb (List.length (validation_errors req) =? 0)%nat then
       ret (mk_response 400 false "Dados inválidos"
              (Some (validation_errors req)) None None None)
     else
       let userId := user_id req in
       cartItems <- Cart.getByUser userId ;;
       if is_zero (length_of cartItems) then
         ret (failure 400 "Carrinho está vazio")
       else
         validation <- Cart.validateCart userId ;;
         if negb (Cart.valid validation) then
           ret (mk_response 400 false "Carrinho inválido" None
                  (issues_of validation) None None)
         else
           total <- call "Cart.getTotal" Cart.getTotal (fun f => f userId) ;;
           let orderData :=
             Order.mk_order_data userId None (shipping_address req)
                                 (payment_method req) (notes req) in
           order <- Order.create orderData ;;
           call "Cart.clear" Cart.clear (fun f => f userId) ;;;
           ret (mk_response 201 true "Pedido criado com sucesso" None None
                  order None))
    internal_error.

(** static async cancel(req, res) *)
Definition cancel (req : request) : DB -> response * DB :=
  try_catch
    (let id := params_id req in
     let isAdmin := String.eqb (user_role req) "admin" in
     order <- Order.findById id ;;
     match order with
     | None => ret (failure 404 "Pedido não encontrado")
     | Some order =>
         if negb isAdmin && negb (o_user_id (Order.row order) =? user_id req)
         then ret (failure 403 "Acesso negado")
         else if Js.array_includes ["shipped"; "delivered"; "cancelled"]
                   (o_status (Order.row order))
         then ret (failure 400 "Pedido não pode ser cancelado neste status")
         else
           cancelledOrder <- Order.cancel id (reason req) ;;
           ret (mk_response 200 true "Pedido cancelado com sucesso" None None
                  cancelledOrder None)
     end)
    internal_error.


(** What updateStatus and updatePaymentStatus read of the request:
    req.params.id and the two properties of req.body, undefined when the
    body does not set them. *)
Record update_request := mk_update_request
  { target_id : Z;
    body_status : option string;
    body_payment_status : option string }.

(** static async updateStatus(req, res); includes is false for a status
    that is undefined. *)
Definition updateStatus (req : update_request) : DB -> response * DB :=
  try_catch
    (match body_status req with
     | Some status =>
         if negb (Js.array_includes Order.validStatuses status) then
           ret (failure 400 "Status inválido")
         else
           order <- Order.updateStatus (target_id req) status None ;;
           match order with
           | None => ret (failure 404 "Pedido não encontrado")
           | Some order =>
               ret (mk_response 200 true
                      "Status do pedido atualizado com sucesso" None None
                      (Some order) None)
           end
     | None => ret (failure 400 "Status inválido")
     end)
    internal_error.

(** static async updatePaymentStatus(req, res) *)
Definition updatePaymentStatus (req : update_request) : DB -> response * DB :=
  try_catch
    (match body_payment_status req with
     | Some payment_status =>
         if negb (Js.array_includes Order.validPaymentStatuses payment_status)
         then ret (failure 400 "Status de pagamento inválido")
         else
           order <- Order.updatePaymentStatus (target_id req) payment_status ;;
           match order with
           | None => ret (failure 404 "Pedido não encontrado")
           | Some order =>
               ret (mk_response 200 true
                      "Status de pagamento atualizado com sucesso" None None
                      (Some order) None)
           end
     | None => ret (failure 400 "Status de pagamento inválido")
     end)
    internal_error.

(** static async delete(req, res) *)
Definition delete (req : request) : DB -> response * DB :=
  try_catch
    (deleted <- Order.delete (params_id req) ;;
     if negb deleted then ret (failure 404 "Pedido não encontrado")
     else ret (mk_response 200 true "Pedido excluído com sucesso" None None
                 None None))
    internal_error.

End OrderController.
(** ** Observations and the inputs of the examples *)

Import Store.

(** The stored lines of one user for one product. *)
Definition lines_of (userId productId : Z) (db : DB) : list cart_row :=
  filter (Cart.is_line_of userId productId) (cart db).

(** All stored lines of one user. *)
Definition rows_of_user (userId : Z) (db : DB) : list cart_row :=
  filter (fun c => c_user_id c =? userId) (cart db).

(** The product addItem finds for an id: the first available row with
    that id. *)
Definition available_product (productId : Z) (db : DB) : option product_row :=
  hd_error (filter (fun p => (p_id p =? productId) && Cart.is_available p)
                   (products db)).

(** The order findById reads for an id. *)
Definition stored_order (id : Z) (db : DB) : option order_row :=
  hd_error (Order.select_order id db).

(** Every stored cart line has a quantity of at least one. *)
Definition quantities_positive (db : DB) : Prop :=
  Forall (fun c => 1 <= c_quantity c) (cart db).


(** The mutations of the Cart Engine. *)
Inductive mutation : Type :=
| AddItem (userId productId quantity : Z)
| UpdateQuantity (userId productId quantity : Z)
| RemoveItem (userId productId : Z)
| ClearCart (userId : Z).

Definition apply_mutation (m : mutation) (db : DB) : DB :=
  match m with
  | AddItem u p q => snd (Cart.addItem u p q db)
  | UpdateQuantity u p q => snd (Cart.updateQuantity u p q db)
  | RemoveItem u p => snd (Cart.removeItem u p db)
  | ClearCart u => snd (Cart.clearCart u db)
  end.

(** The store after the UPDATE of updateStatus that names no notes. *)
Definition status_written (id : Z) (status : string) (db : DB) : DB :=
  with_orders
    (map (fun o => if o_id o =? id then Order.set_status status (clock db) o
                   else o)
         (orders db))
    db.

(** An order that bulkCancel is asked for and may cancel. *)
Definition cancellable (orderIds : list Z) (o : order_row) : bool :=
  Order.id_in orderIds (o_id o) && negb (Order.is_terminal (o_status o)).

(** The operations of the Cart Engine, the Order Engine and the handlers
    that are given no product to write. *)
Inductive operation : Type :=
| CartMutation (m : mutation)
| MoveToOrder (userId orderId : Z)
| OrderCreate (orderData : Order.order_data)
| OrderUpdateStatus (id : Z) (status : string) (notes : option string)
| OrderUpdatePaymentStatus (id : Z) (paymentStatus : string)
| OrderCancel (id : Z) (reason : option string)
| OrderDelete (id : Z)
| OrderBulkUpdateStatus (orderIds : list Z) (status : string)
    (notes : option string)
| OrderBulkCancel (orderIds : list Z) (reason : option string)
| Checkout (req : OrderController.request)
| HandlerCancel (req : OrderController.request).

Definition apply_operation (op : operation) (db : DB) : DB :=
  match op with
  | CartMutation m => apply_mutation m db
  | MoveToOrder u o => snd (Cart.moveToOrder u o db)
  | OrderCreate d => snd (Order.create d db)
  | OrderUpdateStatus id s n => snd (Order.updateStatus id s n db)
  | OrderUpdatePaymentStatus id s => snd (Order.updatePaymentStatus id s db)
  | OrderCancel id r => snd (Order.cancel id r db)
  | OrderDelete id => snd (Order.delete id db)
  | OrderBulkUpdateStatus ids s n => snd (Order.bulkUpdateStatus ids s n db)
  | OrderBulkCancel ids r => snd (Order.bulkCancel ids r db)
  | Checkout req => snd (OrderController.create req db)
  | HandlerCancel req => snd (OrderController.cancel req db)
  end.

(** A checkout request of user 7 that passed the route validation. *)
Definition checkout_request : OrderController.request :=
  OrderController.mk_request [] 7 "user" 0
    (Some "Rua das Flores, 100") (Some "pix") None None.

(** Product A at 10.00 and product B at 5.50, both available; user 7
    holds two of A and one of B. *)
Definition db_two_lines : DB :=
  mk_db [mk_product 1 "A" 10%float 5 "available" 0;
         mk_product 2 "B" 5.5%float 3 "available" 0]
        [mk_cart 1 7 1 2 1; mk_cart 2 7 2 1 2]
        [] [] 2 0 0 5.

(** The lines Order.create expects for that cart. *)
Definition two_lines_frozen : list Order.line_input :=
  [Order.mk_line_input 1 2 10%float; Order.mk_line_input 2 1 5.5%float].

(** The orderData of an order of user 7 for those lines. *)
Definition two_lines_order_data : Order.order_data :=
  Order.mk_order_data 7 (Some two_lines_frozen) (Some "Rua das Flores, 100")
                      (Some "pix") None.

(** One available product with a stock of one; user 7 holds five. *)
Definition db_overstock : DB :=
  mk_db [mk_product 1 "Casaco" 80%float 1 "available" 0]
        [mk_cart 1 7 1 5 1]
        [] [] 1 0 0 5.

(** User 7 has no line. *)
Definition db_no_lines : DB :=
  mk_db [mk_product 1 "Casaco" 80%float 1 "available" 0] [] [] [] 0 0 0 5.

(** One available product with a stock of three and an empty cart table. *)
Definition db_stock_three : DB :=
  mk_db [mk_product 1 "Camiseta" 25%float 3 "available" 0] [] [] [] 0 0 0 5.

(** Order 4 of user 7 is pending and paid, order 5 of user 8 is delivered,
    order 6 of user 7 is shipped; order 4 has two lines. *)
Definition db_orders : DB :=
  mk_db [mk_product 1 "A" 10%float 5 "available" 0]
        []
        [mk_order 4 7 25.5%float "pending" (Some "Rua A, 10") (Some "pix")
                  "paid" 3 3;
         mk_order 5 8 10%float "delivered" (Some "Rua B, 20") (Some "boleto")
                  "paid" 3 4;
         mk_order 6 7 10%float "shipped" (Some "Rua A, 10") (Some "pix")
                  "pending" 4 4]
        [mk_order_item 1 4 1 2 10%float; mk_order_item 2 4 2 1 5.5%float;
         mk_order_item 3 5 1 1 10%float; mk_order_item 4 6 1 1 10%float]
        0 6 4 9.

(** ** Proofs *)

(** *** The tables *)

Lemma columns_of_the_tables :
  Schema.declares Schema.products "stock" = true
  /\ Schema.declares Schema.products "stock_quantity" = false
  /\ Schema.declares Schema.orders "notes" = false.
Proof.
  repeat split; reflexivity.
Qed.

(** *** The Cart Engine: what each method does to the store *)

Lemma getItem_rejected userId productId db :
  Cart.getItem userId productId db
  = (Throw (Schema.no_such_column "p.stock_quantity"), db).
Proof.
  reflexivity.
Qed.

Lemma getByUser_rejected userId db :
  Cart.getByUser userId db
  = (Throw (Schema.no_such_column "p.stock_quantity"), db).
Proof.
  reflexivity.
Qed.

Lemma validateCart_rejected userId db :
  Cart.validateCart userId db
  = (Throw (Schema.no_such_column "p.stock_quantity"), db).
Proof.
  reflexivity.
Qed.

Lemma moveToOrder_rejected userId orderId db :
  Cart.moveToOrder userId orderId db
  = (Throw (Schema.no_such_column "p.stock_quantity"), db).
Proof.
  reflexivity.
Qed.

Lemma removeItem_run userId productId db :
  Cart.removeItem userId productId db
  = (Ok (0 <? Z.of_nat (List.length (lines_of userId productId db))),
     with_cart
       (filter (fun c => negb (Cart.is_line_of userId productId c)) (cart db))
       db).
Proof.
  reflexivity.
Qed.

Lemma clearCart_run userId db :
  Cart.clearCart userId db
  = (Ok (Z.of_nat (List.length (rows_of_user userId db))),
     with_cart (filter (fun c => negb (c_user_id c =? userId)) (cart db)) db).
Proof.
  reflexivity.
Qed.

Lemma updateQuantity_run userId productId quantity db :
  Cart.updateQuantity userId productId quantity db
  = if quantity <=? 0
    then (Ok (Cart.Removed
                (0 <? Z.of_nat (List.length (lines_of userId productId db)))),
          with_cart
            (filter (fun c => negb (Cart.is_line_of userId productId c))
                    (cart db))
            db)
    else (Throw (Schema.no_such_column "stock_quantity"), db).
Proof.
  unfold Cart.updateQuantity. destruct (quantity <=? 0); reflexivity.
Qed.

Lemma addItem_run userId productId quantity db :
  Cart.addItem userId productId quantity db
  = (Throw (match available_product productId db with
            | None => Cart.msg_unavailable
            | Some _ => Schema.no_such_column "p.stock_quantity"
            end), db).
Proof.
  unfold Cart.addItem, available_product, bind, getRow,
    Cart.select_available_product, rows.
  destruct (hd_error _); reflexivity.
Qed.

Lemma isInCart_run userId productId db :
  Cart.isInCart userId productId db
  = (Ok (match lines_of userId productId db with
         | [] => false
         | _ :: _ => true
         end), db).
Proof.
  unfold Cart.isInCart, bind, getRow, Cart.select_in_cart, rows, ret, lines_of.
  destruct (filter _ _); reflexivity.
Qed.

Lemma positive_length {A : Type} (l : list A) :
  (0 <? Z.of_nat (List.length l))
  = match l with [] => false | _ :: _ => true end.
Proof.
  destruct l; [reflexivity|].
  apply Z.ltb_lt. change (0 < Z.of_nat (S (List.length l))). lia.
Qed.

Lemma filter_filter_neg {A : Type} (f : A -> bool) (l : list A) :
  filter f (filter (fun x => negb (f x)) l) = [].
Proof.
  induction l as [|x t IH]; simpl; [reflexivity|].
  destruct (f x) eqn:E; simpl; [assumption|].
  rewrite E. assumption.
Qed.

Lemma filter_neg_idem {A : Type} (f : A -> bool) (l : list A) :
  filter (fun x => negb (f x)) (filter (fun x => negb (f x)) l)
  = filter (fun x => negb (f x)) l.
Proof.
  induction l as [|x t IH]; simpl; [reflexivity|].
  destruct (f x) eqn:E; simpl; [assumption|].
  rewrite E. simpl. f_equal. assumption.
Qed.

Lemma filter_unaffected {A : Type} (f g : A -> bool) (l : list A) :
  (forall x, f x = true -> g x = true) ->
  filter f (filter g l) = filter f l.
Proof.
  intros H. induction l as [|x t IH]; simpl; [reflexivity|].
  destruct (g x) eqn:Eg; simpl.
  - rewrite IH. reflexivity.
  - destruct (f x) eqn:Ef; [|assumption].
    rewrite (H x Ef) in Eg. discriminate.
Qed.


Lemma other_pair u p userId productId c :
  (u, p) <> (userId, productId) ->
  Cart.is_line_of u p c = true ->
  negb (Cart.is_line_of userId productId c) = true.
Proof.
  unfold Cart.is_line_of. intros Hne H.
  apply andb_true_iff in H. destruct H as [Hu Hp].
  apply Z.eqb_eq in Hu. apply Z.eqb_eq in Hp.
  apply negb_true_iff, andb_false_iff.
  destruct (Z.eq_dec u userId) as [->|Hn].
  - right. apply Z.eqb_neq. intros E. apply Hne. congruence.
  - left. apply Z.eqb_neq. congruence.
Qed.

(** *** The Cart Engine: removal *)

(** C8. updateQuantity with a quantity of zero or less has the post-state
    and the result of removeItem on the same state: the lines of the pair
    are deleted and nothing else changes, whatever the quantity. *)
Theorem updateQuantity_nonpositive_is_removeItem
  (userId productId quantity : Z) (db : DB) :
  quantity <= 0 ->
  snd (Cart.updateQuantity userId productId quantity db)
  = snd (Cart.removeItem userId productId db)
  /\ fst (Cart.updateQuantity userId productId quantity db)
     = match fst (Cart.removeItem userId productId db) with
       | Ok deleted => Ok (Cart.Removed deleted)
       | Throw m => Throw m
       end
  /\ snd (Cart.removeItem userId productId db)
     = with_cart
         (filter (fun c => negb (Cart.is_line_of userId productId c)) (cart db))
         db.
Proof.
  intros Hq. rewrite updateQuantity_run, removeItem_run.
  replace (quantity <=? 0) with true by (symmetry; apply Z.leb_le; exact Hq).
  repeat split; reflexivity.
Qed.

Lemma updateQuantity_nonpositive_is_removeItem_witness :
  0 <= 0
  /\ snd (Cart.updateQuantity 7 1 0 db_two_lines)
     = snd (Cart.removeItem 7 1 db_two_lines)
  /\ cart (snd (Cart.updateQuantity 7 1 0 db_two_lines)) = [mk_cart 2 7 2 1 2].
Proof.
  split; [lia|]. split.
  - apply (updateQuantity_nonpositive_is_removeItem 7 1 0 db_two_lines). lia.
  - reflexivity.
Defined.

(** X3. removeItem deletes every line of the pair and no other, returns
    whether there was one, and is idempotent: a second removeItem returns
    false and changes nothing. *)
Theorem removeItem_deletes_the_pair (userId productId : Z) (db : DB) :
  let db' := snd (Cart.removeItem userId productId db) in
  fst (Cart.removeItem userId productId db)
  = Ok (match lines_of userId productId db with
        | [] => false
        | _ :: _ => true
        end)
  /\ lines_of userId productId db' = []
  /\ (forall u p, (u, p) <> (userId, productId) ->
        lines_of u p db' = lines_of u p db)
  /\ Cart.removeItem userId productId db' = (Ok false, db').
Proof.
  intros db'. subst db'. rewrite removeItem_run. cbn [fst snd].
  split; [rewrite positive_length; reflexivity|].
  split; [apply filter_filter_neg|].
  split.
  - intros u p Hne. unfold lines_of, with_cart. cbn [cart].
    apply filter_unaffected. intros c Hc. now apply (other_pair u p).
  - rewrite removeItem_run. unfold lines_of, with_cart. cbn [cart].
    rewrite filter_filter_neg, filter_neg_idem. reflexivity.
Qed.

(** *** The Cart Engine: the invariants of the cart table *)

Lemma Forall_filter {A : Type} (P : A -> Prop) (f : A -> bool) (l : list A) :
  Forall P l -> Forall P (filter f l).
Proof.
  intros H. apply Forall_forall. intros x Hx.
  apply filter_In in Hx. destruct Hx as [Hx _].
  rewrite Forall_forall in H. now apply H.
Qed.

Lemma cart_after_mutation (m : mutation) (db : DB) :
  exists keep : cart_row -> bool,
    cart (apply_mutation m db) = filter keep (cart db).
Proof.
  assert (Hall : cart db = filter (fun _ => true) (cart db)).
  { induction (cart db) as [|c t IH]; simpl; [reflexivity|]. now f_equal. }
  destruct m as [u p q|u p q|u p|u]; cbn [apply_mutation].
  - rewrite addItem_run. exists (fun _ => true). exact Hall.
  - rewrite updateQuantity_run. destruct (q <=? 0).
    + exists (fun c => negb (Cart.is_line_of u p c)). reflexivity.
    + exists (fun _ => true). exact Hall.
  - rewrite removeItem_run. exists (fun c => negb (Cart.is_line_of u p c)).
    reflexivity.
  - rewrite clearCart_run. exists (fun c => negb (c_user_id c =? u)).
    reflexivity.
Qed.

(** C7. Every mutation of the Cart Engine, on every input, keeps the
    quantity of every stored line at one or more; and updateQuantity with
    a quantity of zero or less leaves the pair without a line. *)
Theorem mutations_keep_quantities_positive (m : mutation) (db : DB) :
  quantities_positive db ->
  quantities_positive (apply_mutation m db)
  /\ (forall userId productId quantity,
        m = UpdateQuantity userId productId quantity ->
        quantity <= 0 ->
        lines_of userId productId (apply_mutation m db) = []).
Proof.
  intros H. split.
  - unfold quantities_positive in *.
    destruct (cart_after_mutation m db) as [keep ->].
    now apply Forall_filter.
  - intros u p q -> Hq. cbn [apply_mutation].
    rewrite updateQuantity_run.
    replace (q <=? 0) with true by (symmetry; apply Z.leb_le; exact Hq).
    apply filter_filter_neg.
Qed.

Lemma mutations_keep_quantities_positive_witness :
  quantities_positive db_two_lines
  /\ quantities_positive (apply_mutation (UpdateQuantity 7 1 0) db_two_lines)
  /\ lines_of 7 1 (apply_mutation (UpdateQuantity 7 1 0) db_two_lines) = [].
Proof.
  assert (H : quantities_positive db_two_lines).
  { unfold quantities_positive, db_two_lines; cbn [cart].
    repeat constructor; cbn [c_quantity]; lia. }
  split; [exact H|].
  split.
  - exact (proj1 (mutations_keep_quantities_positive
                    (UpdateQuantity 7 1 0) db_two_lines H)).
  - apply (proj2 (mutations_keep_quantities_positive
                    (UpdateQuantity 7 1 0) db_two_lines H) 7 1 0);
      [reflexivity | lia].
Defined.



(** *** The Cart Engine: the statements that name stock_quantity *)

(** C4. With product 1 available and in stock three times and no line of
    user 7, addItem(7, 1, 2) throws the error of the statement of getItem
    and stores no line; addItem(7, 1, 1) after it does the same, so no
    line with the quantity three exists. *)
Theorem addItem_twice_stores_no_line :
  let db1 := snd (Cart.addItem 7 1 2 db_stock_three) in
  let db2 := snd (Cart.addItem 7 1 1 db1) in
  fst (Cart.addItem 7 1 2 db_stock_three)
  = Throw "SQLITE_ERROR: no such column: p.stock_quantity"
  /\ fst (Cart.addItem 7 1 1 db1)
     = Throw "SQLITE_ERROR: no such column: p.stock_quantity"
  /\ db2 = db_stock_three
  /\ lines_of 7 1 db2 = [].
Proof.
  repeat split; reflexivity.
Qed.

(** C5. validateCart throws the error of the statement of getByUser, and
    returns no validation, on a cart without lines and on a cart whose
    line asks for five of a product in stock once. *)
Theorem validateCart_throws :
  Cart.validateCart 7 db_no_lines
  = (Throw "SQLITE_ERROR: no such column: p.stock_quantity", db_no_lines)
  /\ Cart.validateCart 7 db_overstock
     = (Throw "SQLITE_ERROR: no such column: p.stock_quantity", db_overstock).
Proof.
  split; reflexivity.
Qed.

(** C10. With product 1 available and in stock three times and no line of
    user 7, updateQuantity(7, 1, 2) throws the error of its SELECT of
    stock_quantity; it does not return null.  The store is as before. *)
Theorem updateQuantity_absent_line_throws :
  available_product 1 db_stock_three
  = Some (mk_product 1 "Camiseta" 25%float 3 "available" 0)
  /\ lines_of 7 1 db_stock_three = []
  /\ Cart.updateQuantity 7 1 2 db_stock_three
     = (Throw "SQLITE_ERROR: no such column: stock_quantity", db_stock_three).
Proof.
  repeat split; reflexivity.
Qed.

(** ** Further properties of the Cart Engine *)

Lemma filter_and_neg {A : Type} (f g : A -> bool) (l : list A) :
  filter (fun x => f x && g x) (filter (fun x => negb (f x)) l) = [].
Proof.
  induction l as [|x t IH]; simpl; [reflexivity|].
  destruct (f x) eqn:E; simpl; [exact IH|].
  rewrite E. simpl. exact IH.
Qed.

(** X4. clearCart returns the number of lines the user had and deletes
    exactly those: afterwards the user has no line and isInCart is false
    for every product, the lines of every other user are as before, and a
    second clearCart returns 0 and changes nothing. *)
Theorem clearCart_empties_the_user (userId : Z) (db : DB) :
  let db' := snd (Cart.clearCart userId db) in
  fst (Cart.clearCart userId db)
  = Ok (Z.of_nat (List.length (rows_of_user userId db)))
  /\ rows_of_user userId db' = []
  /\ (forall productId, Cart.isInCart userId productId db' = (Ok false, db'))
  /\ (forall other, other <> userId ->
        rows_of_user other db' = rows_of_user other db)
  /\ Cart.clearCart userId db' = (Ok 0, db')
  /\ products db' = products db /\ orders db' = orders db.
Proof.
  intros db'. subst db'. rewrite clearCart_run. cbn [fst snd].
  assert (Hnone : rows_of_user userId
                    (with_cart (filter (fun c => negb (c_user_id c =? userId))
                                       (cart db)) db) = []).
  { unfold rows_of_user, with_cart. cbn [cart].
    apply (filter_filter_neg (fun c => c_user_id c =? userId)). }
  split; [reflexivity|].
  split; [exact Hnone|].
  split.
  - intros productId. rewrite isInCart_run.
    replace (lines_of userId productId _) with (@nil cart_row);
      [reflexivity|].
    symmetry. unfold lines_of, with_cart. cbn [cart].
    apply (filter_and_neg (fun c => c_user_id c =? userId)).
  - split.
    + intros other Hne. unfold rows_of_user, with_cart. cbn [cart].
      apply filter_unaffected. intros c Hc.
      apply Z.eqb_eq in Hc. apply negb_true_iff, Z.eqb_neq. congruence.
    + split; [|split; reflexivity].
      rewrite clearCart_run, Hnone. unfold with_cart. cbn.
      rewrite (filter_neg_idem (fun c => c_user_id c =? userId)).
      reflexivity.
Qed.

(** X5. addItem stores nothing, whatever its input: it throws 'Produto
    não encontrado ou não disponível' when no available product has the
    id, and otherwise the error of the statement of getItem, before its
    INSERT or UPDATE.  updateQuantity with a quantity above zero throws
    the error of its SELECT of stock_quantity before its UPDATE.  Neither
    throws 'Quantidade solicitada excede o estoque disponível'. *)
Theorem addItem_and_updateQuantity_store_nothing
  (userId productId quantity : Z) (db : DB) :
  snd (Cart.addItem userId productId quantity db) = db
  /\ fst (Cart.addItem userId productId quantity db)
     = Throw (match available_product productId db with
              | None => Cart.msg_unavailable
              | Some _ => "SQLITE_ERROR: no such column: p.stock_quantity"
              end)
  /\ (0 < quantity ->
      Cart.updateQuantity userId productId quantity db
      = (Throw "SQLITE_ERROR: no such column: stock_quantity", db))
  /\ fst (Cart.addItem userId productId quantity db) <> Throw Cart.msg_stock
  /\ fst (Cart.updateQuantity userId productId quantity db)
     <> Throw Cart.msg_stock.
Proof.
  rewrite addItem_run, updateQuantity_run. cbn [fst snd].
  split; [reflexivity|].
  split; [destruct (available_product productId db); reflexivity|].
  split.
  - intros Hq.
    replace (quantity <=? 0) with false
      by (symmetry; apply Z.leb_gt; exact Hq).
    reflexivity.
  - split.
    + destruct (available_product productId db); discriminate.
    + destruct (quantity <=? 0); discriminate.
Qed.

Lemma addItem_and_updateQuantity_store_nothing_witness :
  Cart.updateQuantity 7 1 4 db_two_lines
  = (Throw "SQLITE_ERROR: no such column: stock_quantity", db_two_lines).
Proof.
  apply (addItem_and_updateQuantity_store_nothing 7 1 4 db_two_lines). lia.
Defined.

(** X8. isInCart is true exactly when a line of the pair is stored, and
    writes nothing; it agrees with what removeItem returns on the same
    store, and is false after removeItem. *)
Theorem isInCart_agrees_with_removeItem (userId productId : Z) (db : DB) :
  Cart.isInCart userId productId db
  = (Ok (match lines_of userId productId db with
         | [] => false
         | _ :: _ => true
         end), db)
  /\ fst (Cart.removeItem userId productId db)
     = fst (Cart.isInCart userId productId db)
  /\ fst (Cart.isInCart userId productId
            (snd (Cart.removeItem userId productId db)))
     = Ok false.
Proof.
  rewrite !isInCart_run, removeItem_run. cbn [fst snd].
  split; [reflexivity|].
  split; [rewrite positive_length; reflexivity|].
  unfold lines_of, with_cart. cbn [cart].
  rewrite filter_filter_neg. reflexivity.
Qed.

(** X12. The methods that read the cart through the statements naming
    p.stock_quantity return nothing: getItem, getByUser, validateCart and
    moveToOrder throw the error of SQLite for every input and leave the
    store as it is.  moveToOrder in particular deletes no line: it throws
    at getByUser, before clearCart. *)
Theorem cart_reads_throw (userId productId orderId : Z) (db : DB) :
  Cart.getItem userId productId db
  = (Throw "SQLITE_ERROR: no such column: p.stock_quantity", db)
  /\ Cart.getByUser userId db
     = (Throw "SQLITE_ERROR: no such column: p.stock_quantity", db)
  /\ Cart.validateCart userId db
     = (Throw "SQLITE_ERROR: no such column: p.stock_quantity", db)
  /\ Cart.moveToOrder userId orderId db
     = (Throw "SQLITE_ERROR: no such column: p.stock_quantity", db)
  /\ rows_of_user userId (snd (Cart.moveToOrder userId orderId db))
     = rows_of_user userId db.
Proof.
  rewrite getItem_rejected, getByUser_rejected, validateCart_rejected,
    moveToOrder_rejected.
  repeat split; reflexivity.
Qed.

(** ** Stock updates and the cart *)

Lemma available_after_update_stock productId id quantity db :
  available_product productId (snd (Product.updateStock id quantity db))
  = option_map
      (fun p => if p_id p =? id then Product.set_stock quantity (clock db) p
                else p)
      (available_product productId db).
Proof.
  unfold available_product. cbn.
  induction (products db) as [|p t IH]; simpl; [reflexivity|].
  assert (E : ((p_id (if p_id p =? id
                      then Product.set_stock quantity (clock db) p else p)
                =? productId)
               && Cart.is_available
                    (if p_id p =? id
                     then Product.set_stock quantity (clock db) p else p))
              = ((p_id p =? productId) && Cart.is_available p)).
  { destruct (p_id p =? id); reflexivity. }
  rewrite E. destruct ((p_id p =? productId) && Cart.is_available p);
    [reflexivity | exact IH].
Qed.

(** X13. updateStock sets the column stock of every product with the id
    and returns whether there is one; it leaves the cart and the orders
    as they are.  No method of the Cart Engine reads that column: addItem
    and updateQuantity throw after a stock update what they threw before
    it, whatever the new stock is. *)
Theorem updateStock_is_not_read_by_the_cart
  (id stock userId productId quantity : Z) (db : DB) :
  let db' := snd (Product.updateStock id stock db) in
  fst (Product.updateStock id stock db)
  = Ok (match filter (fun p => p_id p =? id) (products db) with
        | [] => false
        | _ :: _ => true
        end)
  /\ (forall p, In p (products db') -> p_id p = id -> p_stock p = stock)
  /\ cart db' = cart db /\ orders db' = orders db
  /\ fst (Cart.addItem userId productId quantity db')
     = fst (Cart.addItem userId productId quantity db)
  /\ (0 < quantity ->
      fst (Cart.updateQuantity userId productId quantity db')
      = fst (Cart.updateQuantity userId productId quantity db))
  /\ fst (Cart.validateCart userId db') = fst (Cart.validateCart userId db).
Proof.
  intros db'.
  split; [unfold Product.updateStock, bind, runQuery, Product.update_stock,
            executed, ret; cbn [fst snd changes];
          rewrite positive_length; reflexivity|].
  split.
  { intros p Hin Hid. subst db'. cbn in Hin.
    apply in_map_iff in Hin. destruct Hin as [p0 [Hp0 _]].
    destruct (p_id p0 =? id) eqn:E.
    - subst p. reflexivity.
    - subst p. apply Z.eqb_neq in E. contradiction. }
  split; [reflexivity|]. split; [reflexivity|].
  split.
  { rewrite !addItem_run. cbn [fst]. subst db'.
    rewrite available_after_update_stock.
    destruct (available_product productId db); reflexivity. }
  split.
  { intros Hq. rewrite !updateQuantity_run.
    replace (quantity <=? 0) with false
      by (symmetry; apply Z.leb_gt; exact Hq).
    reflexivity. }
  reflexivity.
Qed.

Lemma updateStock_is_not_read_by_the_cart_witness :
  fst (Cart.updateQuantity 7 1 4 (snd (Product.updateStock 1 9 db_two_lines)))
  = fst (Cart.updateQuantity 7 1 4 db_two_lines).
Proof.
  apply (updateStock_is_not_read_by_the_cart 1 9 7 1 4 db_two_lines). lia.
Defined.

(** *** The Order Engine *)

Lemma findById_reads id db :
  Order.findById id db =
  (Ok (option_map (fun r => Order.mk_order_obj r (Order.select_order_items id db))
         (stored_order id db)), db).
Proof.
  unfold stored_order, Order.findById, Order.getOrderItems, bind, getRow,
    getAllRows, rows, ret.
  destruct (hd_error _); reflexivity.
Qed.

Lemma hd_filter_map_matched {A : Type} (f : A -> bool) (g : A -> A)
  (l : list A) :
  (forall x, f x = true -> f (g x) = true) ->
  hd_error (filter f (map (fun x => if f x then g x else x) l))
  = option_map g (hd_error (filter f l)).
Proof.
  intros Hg. induction l as [|x t IH]; simpl; [reflexivity|].
  destruct (f x) eqn:E.
  - rewrite (Hg x E). reflexivity.
  - rewrite E. assumption.
Qed.

Lemma hd_filter_map_updated {A : Type} (f g : A -> bool) (h : A -> A)
  (l : list A) :
  (forall x, f (h x) = f x) ->
  (forall x, f x = true -> g x = true) ->
  hd_error (filter f (map (fun x => if g x then h x else x) l))
  = option_map h (hd_error (filter f l)).
Proof.
  intros Hh Hg. induction l as [|x t IH]; simpl; [reflexivity|].
  destruct (f x) eqn:E.
  - rewrite (Hg x E), Hh, E. reflexivity.
  - destruct (g x); [rewrite Hh|]; rewrite E; assumption.
Qed.

Lemma map_unmatched {A : Type} (f : A -> bool) (g : A -> A) (l : list A) :
  filter f l = [] -> map (fun x => if f x then g x else x) l = l.
Proof.
  induction l as [|x t IH]; simpl; [reflexivity|].
  destruct (f x); [discriminate|]. intros H. now rewrite IH.
Qed.

Lemma filter_other_kept {A : Type} (f g : A -> bool) (l : list A) :
  (forall x, g x = true -> f x = false) ->
  filter g (filter (fun x => negb (f x)) l) = filter g l.
Proof.
  intros Hfg. apply filter_unaffected. intros x Hx.
  now rewrite (Hfg x Hx).
Qed.

Lemma with_orders_same db : with_orders (orders db) db = db.
Proof.
  destruct db; reflexivity.
Qed.

Lemma stored_order_none id db :
  stored_order id db = None ->
  filter (fun o => o_id o =? id) (orders db) = [].
Proof.
  unfold stored_order, Order.select_order.
  destruct (filter _ (orders db)); [reflexivity|discriminate].
Qed.

Lemma id_in_spec ids id : Order.id_in ids id = true <-> In id ids.
Proof.
  unfold Order.id_in. rewrite existsb_exists. split.
  - intros (x & Hx & Heq). apply Z.eqb_eq in Heq. now subst.
  - intros H. exists id. split; [assumption|apply Z.eqb_refl].
Qed.

Lemma stored_order_after_update id status db :
  stored_order id (status_written id status db)
  = option_map (Order.set_status status (clock db)) (stored_order id db).
Proof.
  unfold stored_order, Order.select_order, status_written. simpl.
  apply (hd_filter_map_matched (fun o => o_id o =? id)).
  intros x Hx. exact Hx.
Qed.

Lemma updateStatus_run id status notes db :
  Js.array_includes Order.validStatuses status = true ->
  Js.truthy notes = false ->
  Order.updateStatus id status notes db
  = (Ok (option_map
           (fun r => Order.mk_order_obj r (Order.select_order_items id db))
           (option_map (Order.set_status status (clock db))
                       (stored_order id db))),
     status_written id status db).
Proof.
  intros Hv Hn. unfold Order.updateStatus. rewrite Hv.
  unfold negb, bind, runQuery, Order.update_status. rewrite Hn.
  unfold executed. fold (status_written id status db).
  rewrite findById_reads, stored_order_after_update. reflexivity.
Qed.

Lemma updateStatus_rejected id status notes db :
  Js.array_includes Order.validStatuses status = true ->
  Js.truthy notes = true ->
  Order.updateStatus id status notes db
  = (Throw (Schema.no_such_column "notes"), db).
Proof.
  intros Hv Hn. unfold Order.updateStatus. rewrite Hv.
  unfold negb, bind, runQuery, Order.update_status. rewrite Hn.
  reflexivity.
Qed.

Lemma status_written_missing id status db :
  stored_order id db = None -> status_written id status db = db.
Proof.
  intros Ho. unfold status_written.
  rewrite (map_unmatched _ _ _ (stored_order_none id db Ho)).
  apply with_orders_same.
Qed.

Lemma cancel_notes_truthy reason :
  Js.truthy (Some (Order.cancel_notes reason)) = true.
Proof.
  destruct reason as [[|a r]|]; reflexivity.
Qed.

Lemma cancel_run id reason db :
  Order.cancel id reason db
  = (Throw (match stored_order id db with
            | None => Order.msg_not_found
            | Some o =>
                if Order.is_terminal (o_status o) then Order.msg_cannot_cancel
                else Schema.no_such_column "notes"
            end), db).
Proof.
  unfold Order.cancel, bind at 1. rewrite findById_reads.
  destruct (stored_order id db) as [o|]; [|reflexivity].
  cbn [option_map Order.row]. unfold Order.is_terminal.
  destruct (String.eqb (o_status o) "delivered"
            || String.eqb (o_status o) "cancelled"); [reflexivity|].
  apply updateStatus_rejected; [reflexivity | apply cancel_notes_truthy].
Qed.

(** C6. Order 4 is pending.  cancel(4, reason), with a reason and without
    one, throws the error of the UPDATE that names notes: the order is not
    cancelled and the store is as before.  Order 5 is delivered and
    cancel(5) throws 'Não é possível cancelar este pedido'. *)
Theorem cancel_pending_order_throws :
  option_map o_status (stored_order 4 db_orders) = Some "pending"
  /\ Order.cancel 4 (Some "comprei errado") db_orders
     = (Throw "SQLITE_ERROR: no such column: notes", db_orders)
  /\ Order.cancel 4 None db_orders
     = (Throw "SQLITE_ERROR: no such column: notes", db_orders)
  /\ Order.cancel 5 None db_orders
     = (Throw "Não é possível cancelar este pedido", db_orders).
Proof.
  repeat split; reflexivity.
Qed.

(** C9. Order.create, given the two lines of the cart of user 7, throws
    the error of its INSERT INTO orders, which lists notes: it inserts no
    order row and no order line.  The products table, and with it the
    stock of every product, is as before after Order.create and after the
    checkout handler, for every input. *)
Theorem create_throws_and_inserts_nothing :
  Order.create two_lines_order_data db_two_lines
  = (Throw "SQLITE_ERROR: table orders has no column named notes",
     db_two_lines)
  /\ orders (snd (Order.create two_lines_order_data db_two_lines)) = []
  /\ order_items (snd (Order.create two_lines_order_data db_two_lines)) = []
  /\ (forall orderData db,
        products (snd (Order.create orderData db)) = products db)
  /\ (forall req db,
        products (snd (OrderController.create req db)) = products db).
Proof.
  split; [reflexivity|]. split; [reflexivity|]. split; [reflexivity|].
  split.
  - intros orderData db. unfold Order.create.
    now destruct (Order.od_items orderData).
  - intros req db. unfold OrderController.create, try_catch.
    now destruct (negb _).
Qed.

(** ** Further properties of the Order Engine *)

(** X14. Order.create inserts nothing, whatever its input: without items
    it throws the TypeError of the loop over them, and with items, empty
    or not, the error of the INSERT INTO orders that lists notes; the
    INSERT of the order lines and findById are not reached. *)
Theorem create_inserts_nothing (orderData : Order.order_data) (db : DB) :
  Order.create orderData db
  = (Throw (match Order.od_items orderData with
            | None => "items is not iterable"
            | Some _ => "SQLITE_ERROR: table orders has no column named notes"
            end), db).
Proof.
  unfold Order.create. destruct (Order.od_items orderData); reflexivity.
Qed.

(** X15. updateStatus enforces no transition table.  With a status outside
    the six it throws 'Status inválido' and writes nothing.  With one of
    the six and notes given it throws the error of the UPDATE that names
    notes and writes nothing.  With one of the six and no notes it returns
    null for a missing order and writes nothing, and on an existing order
    it sets the status whatever the current one is (delivered and
    cancelled included) and keeps the payment_status, the total and the
    owner. *)
Theorem updateStatus_sets_any_status
  (id : Z) (status : string) (notes : option string) (db : DB) :
  (Js.array_includes Order.validStatuses status = false ->
   Order.updateStatus id status notes db = (Throw Order.msg_invalid_status, db))
  /\ (Js.array_includes Order.validStatuses status = true ->
      Js.truthy notes = true ->
      Order.updateStatus id status notes db
      = (Throw "SQLITE_ERROR: no such column: notes", db))
  /\ (Js.array_includes Order.validStatuses status = true ->
      Js.truthy notes = false ->
      match stored_order id db with
      | None => Order.updateStatus id status notes db = (Ok None, db)
      | Some o =>
          exists o',
            fst (Order.updateStatus id status notes db)
            = Ok (Some (Order.mk_order_obj o' (Order.select_order_items id db)))
            /\ stored_order id (snd (Order.updateStatus id status notes db))
               = Some o'
            /\ o_status o' = status
            /\ o_payment_status o' = o_payment_status o
            /\ o_total_amount o' = o_total_amount o
            /\ o_user_id o' = o_user_id o
      end).
Proof.
  split; [|split].
  - intros Hv. unfold Order.updateStatus. now rewrite Hv.
  - intros Hv Hn. now apply updateStatus_rejected.
  - intros Hv Hn. rewrite (updateStatus_run id status notes db Hv Hn).
    destruct (stored_order id db) as [o|] eqn:Ho.
    + eexists. cbn [fst snd option_map]. split; [reflexivity|].
      rewrite stored_order_after_update, Ho.
      split; [reflexivity|]. repeat split.
    + cbn [option_map]. f_equal. now apply status_written_missing.
Qed.

Lemma updateStatus_sets_any_status_witness :
  (exists o',
     stored_order 5 (snd (Order.updateStatus 5 "pending" None db_orders))
     = Some o'
     /\ o_status o' = "pending")
  /\ Order.updateStatus 5 "pending" (Some "reaberto") db_orders
     = (Throw "SQLITE_ERROR: no such column: notes", db_orders).
Proof.
  split.
  - pose proof (proj2 (proj2 (updateStatus_sets_any_status 5 "pending" None
                                db_orders)) eq_refl eq_refl) as H.
    change (stored_order 5 db_orders)
      with (Some (mk_order 5 8 10%float "delivered" (Some "Rua B, 20")
                           (Some "boleto") "paid" 3 4)) in H.
    destruct H as (o' & _ & Hstored & Hstatus & _).
    exists o'. split; assumption.
  - exact (proj1 (proj2 (updateStatus_sets_any_status 5 "pending"
                           (Some "reaberto") db_orders)) eq_refl eq_refl).
Defined.

Lemma stored_order_after_payment id paymentStatus db :
  stored_order id (snd (Order.update_payment_status paymentStatus id db))
  = option_map (Order.set_payment_status paymentStatus (clock db))
               (stored_order id db).
Proof.
  unfold stored_order, Order.select_order, Order.update_payment_status. simpl.
  apply (hd_filter_map_matched (fun o => o_id o =? id)).
  intros x Hx. exact Hx.
Qed.

Lemma updatePaymentStatus_run id paymentStatus db :
  Js.array_includes Order.validPaymentStatuses paymentStatus = true ->
  Order.updatePaymentStatus id paymentStatus db
  = (Ok (option_map
           (fun r => Order.mk_order_obj r (Order.select_order_items id db))
           (option_map (Order.set_payment_status paymentStatus (clock db))
                       (stored_order id db))),
     snd (Order.update_payment_status paymentStatus id db)).
Proof.
  intros Hv. unfold Order.updatePaymentStatus. rewrite Hv.
  unfold negb, bind, runQuery.
  destruct (Order.update_payment_status paymentStatus id db)
    as [r db1] eqn:E.
  assert (Hdb : db1 = snd (Order.update_payment_status paymentStatus id db))
    by (now rewrite E).
  unfold Order.update_payment_status, executed in E.
  injection E as <- _.
  rewrite findById_reads. cbn [snd]. rewrite Hdb.
  rewrite stored_order_after_payment. reflexivity.
Qed.

Lemma payment_written_missing id paymentStatus db :
  stored_order id db = None ->
  snd (Order.update_payment_status paymentStatus id db) = db.
Proof.
  intros Ho. unfold Order.update_payment_status, executed. cbn [snd].
  rewrite (map_unmatched _ _ _ (stored_order_none id db Ho)).
  apply with_orders_same.
Qed.

(** X16. updatePaymentStatus throws 'Status de pagamento inválido' and
    writes nothing for a value outside pending, paid, failed and refunded;
    otherwise it returns null when the order does not exist, and on an
    existing order sets the payment_status and leaves the status, the
    notes and the total as they are, whatever the order status is. *)
Theorem updatePaymentStatus_is_independent
  (id : Z) (paymentStatus : string) (db : DB) :
  (Js.array_includes Order.validPaymentStatuses paymentStatus = false ->
   Order.updatePaymentStatus id paymentStatus db
   = (Throw Order.msg_invalid_payment_status, db))
  /\ (Js.array_includes Order.validPaymentStatuses paymentStatus = true ->
      match stored_order id db with
      | None => Order.updatePaymentStatus id paymentStatus db = (Ok None, db)
      | Some o =>
          exists o',
            fst (Order.updatePaymentStatus id paymentStatus db)
            = Ok (Some (Order.mk_order_obj o' (Order.select_order_items id db)))
            /\ stored_order id (snd (Order.updatePaymentStatus id paymentStatus db))
               = Some o'
            /\ o_payment_status o' = paymentStatus
            /\ o_status o' = o_status o
            /\ o_notes o' = o_notes o
            /\ o_total_amount o' = o_total_amount o
      end).
Proof.
  split.
  - intros Hv. unfold Order.updatePaymentStatus. now rewrite Hv.
  - intros Hv. rewrite (updatePaymentStatus_run id paymentStatus db Hv).
    destruct (stored_order id db) as [o|] eqn:Ho.
    + eexists. cbn [fst snd option_map]. split; [reflexivity|].
      rewrite stored_order_after_payment, Ho.
      split; [reflexivity|]. repeat split.
    + cbn [option_map]. f_equal. now apply payment_written_missing.
Qed.

Lemma updatePaymentStatus_is_independent_witness :
  exists o',
    stored_order 6 (snd (Order.updatePaymentStatus 6 "refunded" db_orders))
    = Some o'
    /\ o_payment_status o' = "refunded"
    /\ o_status o' = "shipped".
Proof.
  pose proof (proj2 (updatePaymentStatus_is_independent 6 "refunded" db_orders)
                eq_refl) as H.
  change (stored_order 6 db_orders)
    with (Some (mk_order 6 7 10%float "shipped" (Some "Rua A, 10") (Some "pix")
                         "pending" 4 4)) in H.
  destruct H as (o' & _ & Hstored & Hpay & Hstatus & _).
  exists o'. repeat split; assumption.
Defined.

(** X17. Order.cancel cancels nothing, whatever its input: it throws
    'Pedido não encontrado' for a missing order, 'Não é possível cancelar
    este pedido' for a delivered or cancelled one, and for an order of any
    other status the error of the UPDATE that names notes, which cancel
    always supplies.  The store is as before in each case. *)
Theorem cancel_never_cancels (id : Z) (reason : option string) (db : DB) :
  snd (Order.cancel id reason db) = db
  /\ fst (Order.cancel id reason db)
     = Throw (match stored_order id db with
              | None => Order.msg_not_found
              | Some o =>
                  if String.eqb (o_status o) "delivered"
                     || String.eqb (o_status o) "cancelled"
                  then Order.msg_cannot_cancel
                  else "SQLITE_ERROR: no such column: notes"
              end).
Proof.
  rewrite cancel_run. split; reflexivity.
Qed.

(** X18. delete removes the order and its order lines and nothing else: it
    returns whether the order existed; afterwards findById returns null,
    the id has no order line and cancel throws 'Pedido não encontrado';
    any other order and its lines are as before. *)
Theorem delete_removes_order_and_lines (id : Z) (db : DB) :
  let db' := snd (Order.delete id db) in
  fst (Order.delete id db)
  = Ok (match stored_order id db with Some _ => true | None => false end)
  /\ Order.findById id db' = (Ok None, db')
  /\ Order.select_order_items id db' = []
  /\ (forall reason, Order.cancel id reason db' = (Throw Order.msg_not_found, db'))
  /\ (forall other, other <> id ->
        stored_order other db' = stored_order other db
        /\ Order.select_order_items other db'
           = Order.select_order_items other db)
  /\ products db' = products db /\ cart db' = cart db.
Proof.
  intros db'.
  assert (Hnone : stored_order id db' = None).
  { subst db'. unfold stored_order, Order.select_order, Order.delete.
    unfold bind, runQuery, ret. cbn.
    now rewrite filter_filter_neg. }
  assert (Hfind : Order.findById id db' = (Ok None, db'))
    by (now rewrite findById_reads, Hnone).
  split.
  - unfold Order.delete, bind, runQuery, ret, stored_order, Order.select_order.
    cbn [fst snd Order.delete_order_items Order.delete_order executed changes
         orders].
    f_equal. rewrite positive_length.
    destruct (filter _ (orders db)); reflexivity.
  - split; [exact Hfind|]. split.
    + subst db'. unfold Order.select_order_items, Order.delete.
      unfold bind, runQuery, ret. cbn.
      apply filter_filter_neg.
    + split.
      * intros reason. rewrite cancel_run, Hnone. reflexivity.
      * split; [|split; reflexivity].
        intros other Hne.
        assert (Hkeep : forall x : Z, (x =? other) = true -> (x =? id) = false).
        { intros x Hx. apply Z.eqb_eq in Hx. apply Z.eqb_neq. congruence. }
        subst db'. unfold stored_order, Order.select_order,
          Order.select_order_items, Order.delete.
        unfold bind, runQuery, ret. cbn.
        split; [f_equal|].
        -- apply (filter_other_kept (fun o => o_id o =? id)
                    (fun o => o_id o =? other)).
           intros o. apply Hkeep.
        -- apply (filter_other_kept (fun oi => oi_order_id oi =? id)
                    (fun oi => oi_order_id oi =? other)).
           intros oi. apply Hkeep.
Qed.

(** X19. bulkCancel cancels nothing, whatever its input.  For an empty
    list of ids it throws 'IDs de pedidos inválidos'; when none of the
    listed orders exists with a status other than delivered and cancelled
    it returns cancelled 0 with the error 'Nenhum pedido pode ser
    cancelado'; and when one does, it throws the error of its UPDATE,
    which names notes.  The store is as before in each case. *)
Theorem bulkCancel_cancels_nothing
  (orderIds : list Z) (reason : option string) (db : DB) :
  snd (Order.bulkCancel orderIds reason db) = db
  /\ fst (Order.bulkCancel orderIds reason db)
     = match orderIds with
       | [] => Throw Order.msg_invalid_ids
       | _ :: _ =>
           match filter (cancellable orderIds) (orders db) with
           | [] => Ok (Order.mk_bulk_cancel 0 (Z.of_nat (List.length orderIds))
                         ["Nenhum pedido pode ser cancelado"])
           | _ :: _ => Throw "SQLITE_ERROR: no such column: notes"
           end
       end.
Proof.
  unfold Order.bulkCancel.
  destruct orderIds as [|i ids]; [split; reflexivity|].
  set (orderIds := i :: ids).
  change (List.length orderIds =? 0)%nat with false. cbv iota.
  unfold bind, getAllRows, rows, Order.select_cancellable.
  fold (cancellable orderIds).
  rewrite !length_map.
  destruct (filter (cancellable orderIds) (orders db)); split; reflexivity.
Qed.

(** X20. bulkUpdateStatus throws and writes nothing for a status outside
    the six or for an empty list of ids, and, when notes are given, throws
    the error of the UPDATE that names notes and writes nothing.  Without
    notes it applies the status to every listed order whatever its current
    status, terminal ones included, and reports the number of rows updated
    and of ids given. *)
Theorem bulkUpdateStatus_skips_no_status
  (orderIds : list Z) (status : string) (notes : option string) (db : DB) :
  (Js.array_includes Order.validStatuses status = false ->
   Order.bulkUpdateStatus orderIds status notes db
   = (Throw Order.msg_invalid_status, db))
  /\ (Js.array_includes Order.validStatuses status = true ->
      match orderIds with
      | [] => Order.bulkUpdateStatus orderIds status notes db
              = (Throw Order.msg_invalid_ids, db)
      | _ :: _ =>
          if Js.truthy notes
          then Order.bulkUpdateStatus orderIds status notes db
               = (Throw "SQLITE_ERROR: no such column: notes", db)
          else
            fst (Order.bulkUpdateStatus orderIds status notes db)
            = Ok (Order.mk_bulk_update
                    (Z.of_nat (List.length
                       (filter (fun o => Order.id_in orderIds (o_id o))
                               (orders db))))
                    (Z.of_nat (List.length orderIds)) status)
            /\ forall id o,
                 In id orderIds -> stored_order id db = Some o ->
                 stored_order id
                   (snd (Order.bulkUpdateStatus orderIds status notes db))
                 = Some (Order.set_status status (clock db) o)
      end).
Proof.
  split.
  - intros Hv. unfold Order.bulkUpdateStatus. now rewrite Hv.
  - intros Hv. unfold Order.bulkUpdateStatus. rewrite Hv. unfold negb.
    destruct orderIds as [|i ids]; [reflexivity|].
    set (orderIds := i :: ids).
    change (List.length orderIds =? 0)%nat with false. cbv iota.
    unfold bind, runQuery, ret, Order.update_status_in.
    destruct (Js.truthy notes); [reflexivity|].
    unfold executed. cbn [fst snd changes].
    split; [reflexivity|].
    intros id o Hin Ho. unfold stored_order, Order.select_order in *.
    cbn [orders with_orders].
    rewrite (hd_filter_map_updated (fun x => o_id x =? id)
               (fun x => Order.id_in orderIds (o_id x))
               (Order.set_status status (clock db))).
    + now rewrite Ho.
    + reflexivity.
    + intros x Hx. apply Z.eqb_eq in Hx. apply id_in_spec. now rewrite Hx.
Qed.

Lemma bulkUpdateStatus_skips_no_status_witness :
  stored_order 5 (snd (Order.bulkUpdateStatus [5; 6] "cancelled" None db_orders))
  = Some (mk_order 5 8 10%float "cancelled" (Some "Rua B, 20") (Some "boleto")
                   "paid" 3 9).
Proof.
  assert (Hin : In 5 [5; 6]) by (now left).
  exact (proj2 (proj2 (bulkUpdateStatus_skips_no_status [5; 6] "cancelled" None
                         db_orders) eq_refl)
           5 (mk_order 5 8 10%float "delivered" (Some "Rua B, 20")
                       (Some "boleto") "paid" 3 4)
           Hin eq_refl).
Defined.

(** ** The handlers of OrderController *)

Lemma controller_create_run (req : OrderController.request) (db : DB) :
  OrderController.create req db
  = (if negb (List.length (OrderController.validation_errors req) =? 0)%nat
     then OrderController.mk_response 400 false "Dados inválidos"
            (Some (OrderController.validation_errors req)) None None None
     else OrderController.internal_error
            (Schema.no_such_column "p.stock_quantity"),
     db).
Proof.
  unfold OrderController.create, try_catch.
  destruct (negb _); reflexivity.
Qed.

(** C1. User 7 holds two of product A at 10.00 and one of product B at
    5.50, both available and in stock, and the request passed the route
    validation.  The checkout handler answers 500 with the error of the
    statement of Cart.getByUser; no order and no order line is created
    and the cart of the user is as before. *)
Theorem checkout_two_line_cart_answers_500 :
  OrderController.create checkout_request db_two_lines
  = (OrderController.internal_error
       "SQLITE_ERROR: no such column: p.stock_quantity",
     db_two_lines)
  /\ orders (snd (OrderController.create checkout_request db_two_lines)) = []
  /\ order_items (snd (OrderController.create checkout_request db_two_lines))
     = []
  /\ rows_of_user 7 (snd (OrderController.create checkout_request db_two_lines))
     = [mk_cart 1 7 1 2 1; mk_cart 2 7 2 1 2].
Proof.
  repeat split; reflexivity.
Qed.

(** C2. User 7 holds five of a product in stock once.  The checkout
    handler answers 500 with the error of the statement of
    Cart.getByUser, not 400 'Carrinho inválido', and its body carries no
    list of violations; no order is created. *)
Theorem checkout_overstock_answers_500 :
  OrderController.create checkout_request db_overstock
  = (OrderController.internal_error
       "SQLITE_ERROR: no such column: p.stock_quantity",
     db_overstock)
  /\ OrderController.details
       (fst (OrderController.create checkout_request db_overstock)) = None
  /\ OrderController.errors
       (fst (OrderController.create checkout_request db_overstock)) = None
  /\ orders (snd (OrderController.create checkout_request db_overstock)) = [].
Proof.
  repeat split; reflexivity.
Qed.

(** C3. User 7 has no cart line.  The checkout handler answers 500 with
    the error of the statement of Cart.getByUser, not 400 'Carrinho está
    vazio'; no order is created. *)
Theorem checkout_no_lines_answers_500 :
  rows_of_user 7 db_no_lines = []
  /\ OrderController.create checkout_request db_no_lines
     = (OrderController.internal_error
          "SQLITE_ERROR: no such column: p.stock_quantity",
        db_no_lines)
  /\ OrderController.message
       (fst (OrderController.create checkout_request db_no_lines))
     <> "Carrinho está vazio"
  /\ orders (snd (OrderController.create checkout_request db_no_lines)) = [].
Proof.
  repeat split; try reflexivity. discriminate.
Qed.

(** X21. The checkout handler, for every request and store, writes
    nothing, answers 400 or 500, never 201, and returns no order. *)
Theorem checkout_never_writes (req : OrderController.request) (db : DB) :
  snd (OrderController.create req db) = db
  /\ (OrderController.status (fst (OrderController.create req db)) = 400
      \/ OrderController.status (fst (OrderController.create req db)) = 500)
  /\ OrderController.success (fst (OrderController.create req db)) = false
  /\ OrderController.data (fst (OrderController.create req db)) = None.
Proof.
  rewrite controller_create_run. cbn [fst snd].
  split; [reflexivity|].
  destruct (negb _); repeat split; auto.
Qed.

Lemma refused_statuses status :
  Js.array_includes ["shipped"; "delivered"; "cancelled"] status = false ->
  Order.is_terminal status = false.
Proof.
  unfold Js.array_includes, Order.is_terminal. simpl.
  destruct (String.eqb status "shipped"); [discriminate|].
  destruct (String.eqb status "delivered"); [discriminate|].
  destruct (String.eqb status "cancelled"); [discriminate|reflexivity].
Qed.

Lemma controller_cancel_run (req : OrderController.request) (db : DB) :
  OrderController.cancel req db
  = (match stored_order (OrderController.params_id req) db with
     | None => OrderController.failure 404 "Pedido não encontrado"
     | Some o =>
         if negb (String.eqb (OrderController.user_role req) "admin")
            && negb (o_user_id o =? OrderController.user_id req)
         then OrderController.failure 403 "Acesso negado"
         else if Js.array_includes ["shipped"; "delivered"; "cancelled"]
                   (o_status o)
         then OrderController.failure 400
                "Pedido não pode ser cancelado neste status"
         else OrderController.internal_error (Schema.no_such_column "notes")
     end, db).
Proof.
  unfold OrderController.cancel, try_catch, bind at 1.
  rewrite findById_reads.
  destruct (stored_order (OrderController.params_id req) db) as [o|] eqn:Ho;
    [|reflexivity].
  cbn [option_map Order.row].
  destruct (negb _ && negb _); [reflexivity|].
  destruct (Js.array_includes _ (o_status o)) eqn:Hinc; [reflexivity|].
  unfold bind. rewrite cancel_run, Ho, (refused_statuses _ Hinc).
  reflexivity.
Qed.






Lemma delete_removes_order_and_lines_aux id db :
  stored_order id (snd (Order.delete id db)) = None
  /\ Order.select_order_items id (snd (Order.delete id db)) = [].
Proof.
  unfold stored_order, Order.select_order, Order.select_order_items,
    Order.delete, bind, runQuery, ret.
  cbn. now rewrite !filter_filter_neg.
Qed.

Lemma filter_unmatched {A : Type} (f : A -> bool) (l : list A) :
  filter f l = [] -> filter (fun x => negb (f x)) l = l.
Proof.
  induction l as [|x t IH]; simpl; [reflexivity|].
  destruct (f x); [discriminate|]. intros H. simpl. now rewrite IH.
Qed.

Lemma controller_delete_run (req : OrderController.request) (db : DB) :
  OrderController.delete req db
  = (match stored_order (OrderController.params_id req) db with
     | Some _ =>
         OrderController.mk_response 200 true "Pedido excluído com sucesso"
           None None None None
     | None => OrderController.failure 404 "Pedido não encontrado"
     end,
     snd (Order.delete (OrderController.params_id req) db)).
Proof.
  unfold OrderController.delete, try_catch, bind at 1.
  unfold Order.delete, bind, runQuery, ret, stored_order, Order.select_order.
  cbn [fst snd Order.delete_order_items Order.delete_order executed changes
       orders].
  rewrite positive_length.
  destruct (filter _ (orders db)); reflexivity.
Qed.

(** X25. The delete handler answers 200 when the order exists and 404 when
    it does not, never 500.  After a 200 the order and its lines are gone;
    after a 404 the orders table is as before. *)
Theorem controller_delete_answers (req : OrderController.request) (db : DB) :
  let res := fst (OrderController.delete req db) in
  let db' := snd (OrderController.delete req db) in
  (OrderController.status res = 200
   <-> stored_order (OrderController.params_id req) db <> None)
  /\ (OrderController.status res = 404
      <-> stored_order (OrderController.params_id req) db = None)
  /\ stored_order (OrderController.params_id req) db' = None
  /\ Order.select_order_items (OrderController.params_id req) db' = []
  /\ (OrderController.status res = 404 -> orders db' = orders db).
Proof.
  intros res db'. subst res db'. rewrite controller_delete_run. cbn [fst snd].
  pose proof (delete_removes_order_and_lines_aux
                (OrderController.params_id req) db) as (Hnone & Hitems).
  split; [|split; [|split; [exact Hnone|split; [exact Hitems|]]]].
  - destruct (stored_order (OrderController.params_id req) db);
      cbn [OrderController.status OrderController.failure];
      split; intros H; congruence.
  - destruct (stored_order (OrderController.params_id req) db);
      cbn [OrderController.status OrderController.failure];
      split; intros H; congruence.
  - destruct (stored_order (OrderController.params_id req) db) eqn:Ho;
      [discriminate|]. intros _.
    unfold Order.delete, bind, runQuery, ret. cbn.
    apply filter_unmatched. now apply stored_order_none.
Qed.



(** ** Frame: the products table *)

(** X28. No operation of the Cart Engine, of the Order Engine or of the
    checkout and cancel handlers writes the products table: whatever the
    operation, its input and its outcome, every product row, its stock
    included, is as before.  Product.updateStock is the one statement
    modelled here that writes it. *)
Theorem products_written_by_no_operation (op : operation) (db : DB) :
  products (apply_operation op db) = products db.
Proof.
  destruct op as [m|u o|d|id s n|id s|id r|id|ids s n|ids r|req|req];
    cbn [apply_operation].
  - destruct m as [u p q|u p q|u p|u]; cbn [apply_mutation].
    + now rewrite addItem_run.
    + rewrite updateQuantity_run. now destruct (q <=? 0).
    + now rewrite removeItem_run.
    + now rewrite clearCart_run.
  - now rewrite moveToOrder_rejected.
  - unfold Order.create. now destruct (Order.od_items d).
  - unfold Order.updateStatus, bind, runQuery, Order.update_status.
    destruct (negb _); [reflexivity|].
    destruct (Js.truthy n); [reflexivity|].
    unfold executed. now rewrite findById_reads.
  - unfold Order.updatePaymentStatus, bind, runQuery,
      Order.update_payment_status.
    destruct (negb _); [reflexivity|].
    unfold executed. now rewrite findById_reads.
  - now rewrite cancel_run.
  - reflexivity.
  - unfold Order.bulkUpdateStatus, bind, runQuery, Order.update_status_in.
    destruct (negb _); [reflexivity|].
    destruct (List.length ids =? 0)%nat; [reflexivity|].
    destruct (Js.truthy n); reflexivity.
  - unfold Order.bulkCancel, bind, getAllRows, rows.
    destruct (List.length ids =? 0)%nat; [reflexivity|].
    destruct (List.length _ =? 0)%nat; reflexivity.
  - now rewrite controller_create_run.
  - now rewrite controller_cancel_run.
Qed.
